(** * Loan-contract analysis: confidence scorer and financial calculator

    A shallow embedding of [src/contract_parser.py] (data model and
    [_calcular_confianza]) and of [src/financial_calculator.py]
    (amortization schedules, rates, sensitivity analysis and prepayment
    simulation), together with the properties of the specification that
    concern them.

    Numbers.  Python's [float] values are modelled by exact rationals [Q]:
    [+], [-], [*] are exact, [/] raises [ZeroDivisionError] on a zero
    divisor, [**] with an integer exponent is [Qpower], and [round(x, 2)] is
    rounding to the nearest hundredth with ties to even.  A float that is
    stored in a variable is kept in lowest terms ([fl]), which leaves the
    number unchanged and keeps the model executable.  Python's [int] values
    are modelled by [Z].

    Overflow of floats and the year range of [datetime] are outside the
    model.

    Effects.  The calculator reads the wall clock ([datetime.now()]); the
    clock reading is an explicit argument [fecha_base] of every function
    that does, one reading for each call of a public operation.  The
    confidence scorer appends to [contrato.advertencias]; it returns the
    updated contract next to the score.  Exceptions are carried by the
    error monad [result]. *)

From Stdlib Require Import ZArith QArith Qround Qabs Qpower Qminmax.
From Stdlib Require Import Qfield List String Ascii Bool Lia Lqa Sorted.
Import ListNotations.

Open Scope string_scope.
Open Scope Q_scope.

(** ** Exceptions *)

Inductive exn : Type :=
| ZeroDivisionError
| IndexError
| KeyError
| TypeError.

Inductive result (A : Type) : Type :=
| Ok (a : A)
| Raise (e : exn).

Arguments Ok {A} a.
Arguments Raise {A} e.

Definition bind {A B : Type} (m : result A) (k : A -> result B) : result B :=
  match m with
  | Ok a => k a
  | Raise e => Raise e
  end.

Notation "x <- m ;; k" := (bind m (fun x => k))
  (at level 61, m at next level, right associativity).

Definition raises {A : Type} (m : result A) : Prop :=
  exists e, m = Raise e.

(** ** Python numerics *)

Definition Qltb (x y : Q) : bool :=
  (Qnum x * QDen y <? Qnum y * QDen x)%Z.

Definition Qis_zero (x : Q) : bool := Qeq_bool x 0.

(** A stored float: the same number, in lowest terms. *)
Definition fl (x : Q) : Q := Qred x.

(** [a / b] on floats. *)
Definition py_div (a b : Q) : result Q :=
  if Qis_zero b then Raise ZeroDivisionError else Ok (fl (a / b)).

(** [max(0, x)]: the first argument is kept unless the second is larger. *)
Definition py_max0 (x : Q) : Q := if Qltb 0 x then x else 0.

(** [max(a, b)] and [min(a, b)]. *)
Definition py_max (a b : Q) : Q := if Qltb a b then b else a.
Definition py_min (a b : Q) : Q := if Qltb b a then b else a.

(** Nearest integer, ties to even. *)
Definition round_half_even (x : Q) : Z :=
  let n := Qnum x in
  let d := Zpos (Qden x) in
  let f := (n / d)%Z in
  let r := (n mod d)%Z in
  match (2 * r ?= d)%Z with
  | Lt => f
  | Gt => (f + 1)%Z
  | Eq => if Z.even f then f else (f + 1)%Z
  end.

(** [round(x, 2)]. *)
Definition py_round2 (x : Q) : Q := round_half_even (x * 100) # 100.

(** [int(x)]: truncation toward zero. *)
Definition py_int (x : Q) : Z := Z.quot (Qnum x) (Zpos (Qden x)).

(** [sum(...)] of floats, starting from [0]. *)
Definition py_sum (l : list Q) : Q := fold_left Qplus l 0.

(** ** Data model ([contract_parser.py]) *)

Inductive TipoTasa : Type := FIJA | VARIABLE.

Inductive TipoGarantia : Type := REAL | PERSONAL | MIXTA | SIN_GARANTIA.

Inductive FrecuenciaPago : Type :=
| MENSUAL | TRIMESTRAL | SEMESTRAL | ANUAL | BULLET.

Definition TipoTasa_eqb (a b : TipoTasa) : bool :=
  match a, b with
  | FIJA, FIJA | VARIABLE, VARIABLE => true
  | _, _ => false
  end.

Module Comision.
Record t : Type := mk {
  tipo : string;
  valor : Q;
  es_porcentaje : bool;
  base : string;
  descripcion : string
}.
End Comision.

Module Garantia.
Record t : Type := mk {
  tipo : string;
  descripcion : string;
  tipo_general : TipoGarantia
}.
End Garantia.

Module ClausulaPrepago.
Record t : Type := mk {
  permitido : bool;
  penalizacion : Q;
  periodo_penalizacion_meses : Z;
  descripcion : string
}.
End ClausulaPrepago.

Module Covenant.
Record t : Type := mk {
  tipo : string;
  valor : Q;
  operador : string;
  descripcion : string
}.
End Covenant.

Module ClausulaIncumplimiento.
Record t : Type := mk {
  tipo : string;
  descripcion : string;
  tiene_aceleracion : bool
}.
End ClausulaIncumplimiento.

Module Tramo.
Record t : Type := mk {
  nombre : string;
  monto : Q;
  moneda : string;
  tasa : Q;
  tipo_tasa : TipoTasa;
  plazo_meses : Z;
  frecuencia_pago : FrecuenciaPago;
  indice_referencia : option string;
  spread : option Q;
  cap : option Q;
  floor : option Q;
  periodo_gracia_meses : Z;
  garantias : list Garantia.t;
  comisiones : list Comision.t;
  prepago : option ClausulaPrepago.t
}.
End Tramo.

Record ContratoParseado : Type := mkContrato {
  prestamista : string;
  prestatario : string;
  tramos : list Tramo.t;
  monto_principal : Q;
  moneda : string;
  tasa_nominal : Q;
  tipo_tasa : TipoTasa;
  plazo_meses : Z;
  frecuencia_pago : FrecuenciaPago;
  indice_referencia : option string;
  spread_bps : option Q;
  cap : option Q;
  floor : option Q;
  periodo_gracia_meses : Z;
  es_bullet : bool;
  garantias : list Garantia.t;
  tipo_garantia_general : TipoGarantia;
  comisiones : list Comision.t;
  prepago : option ClausulaPrepago.t;
  covenants : list Covenant.t;
  clausulas_incumplimiento : list ClausulaIncumplimiento.t;
  tiene_cross_default : bool;
  jurisdiccion : string;
  confianza_extraccion : Q;
  advertencias : list string;
  texto_original : string
}.

(** [ContratoParseado()]: every field at its dataclass default. *)
Definition ContratoParseado_default : ContratoParseado :=
  {| prestamista := EmptyString; prestatario := EmptyString; tramos := [];
     monto_principal := 0; moneda := "USD"; tasa_nominal := 0;
     tipo_tasa := FIJA; plazo_meses := 0%Z; frecuencia_pago := MENSUAL;
     indice_referencia := None; spread_bps := None; cap := None;
     floor := None; periodo_gracia_meses := 0%Z; es_bullet := false;
     garantias := []; tipo_garantia_general := SIN_GARANTIA;
     comisiones := []; prepago := None; covenants := [];
     clausulas_incumplimiento := []; tiene_cross_default := false;
     jurisdiccion := EmptyString; confianza_extraccion := 0;
     advertencias := []; texto_original := EmptyString |}.

(** [contrato.advertencias.append(w)] *)
Definition advertencias_append (c : ContratoParseado) (w : string)
  : ContratoParseado :=
  {| prestamista := prestamista c; prestatario := prestatario c;
     tramos := tramos c; monto_principal := monto_principal c;
     moneda := moneda c; tasa_nominal := tasa_nominal c;
     tipo_tasa := tipo_tasa c; plazo_meses := plazo_meses c;
     frecuencia_pago := frecuencia_pago c;
     indice_referencia := indice_referencia c; spread_bps := spread_bps c;
     cap := cap c; floor := floor c;
     periodo_gracia_meses := periodo_gracia_meses c;
     es_bullet := es_bullet c; garantias := garantias c;
     tipo_garantia_general := tipo_garantia_general c;
     comisiones := comisiones c; prepago := prepago c;
     covenants := covenants c;
     clausulas_incumplimiento := clausulas_incumplimiento c;
     tiene_cross_default := tiene_cross_default c;
     jurisdiccion := jurisdiccion c;
     confianza_extraccion := confianza_extraccion c;
     advertencias := (advertencias c ++ [w])%list;
     texto_original := texto_original c |}.

(** Truthiness of a list and of a string. *)
Definition list_truthy {A : Type} (l : list A) : bool :=
  match l with [] => false | _ => true end.

Definition str_truthy (s : string) : bool :=
  match s with EmptyString => false | _ => true end.

(** ** Confidence scorer ([ContractParser._calcular_confianza])

    The function mutates [contrato.advertencias] and returns the score; the
    model threads the pair (score, contract) through the seven tests. *)

Definition penalizar (cond : bool) (puntos : Q) (aviso : option string)
    (st : Q * ContratoParseado) : Q * ContratoParseado :=
  if cond then
    (fst st - puntos,
     match aviso with
     | Some w => advertencias_append (snd st) w
     | None => snd st
     end)
  else st.

Definition _calcular_confianza (contrato : ContratoParseado)
  : Q * ContratoParseado :=
  let st := (100, contrato) in
  let st := penalizar (Qis_zero (monto_principal contrato)) 20
              (Some "No se pudo extraer el monto principal") st in
  let st := penalizar (Qis_zero (tasa_nominal contrato)
                       && TipoTasa_eqb (tipo_tasa contrato) FIJA) 15
              (Some "No se pudo extraer la tasa de interés") st in
  let st := penalizar (Z.eqb (plazo_meses contrato) 0) 15
              (Some "No se pudo extraer el plazo") st in
  let st := penalizar (negb (list_truthy (garantias contrato))) 5
              (Some "No se identificaron garantías explícitas") st in
  let st := penalizar (negb (list_truthy (comisiones contrato))) 5
              (Some "No se identificaron comisiones") st in
  let st := penalizar (negb (str_truthy (prestamista contrato))) 5 None st in
  let st := penalizar (negb (str_truthy (prestatario contrato))) 5 None st in
  (py_max0 (fst st), snd st).

(** ** Dates ([datetime])

    Only the date part of [datetime.now()] reaches the output, so a clock
    reading is modelled by its proleptic Gregorian ordinal (day 1 is
    0001-01-01, as [date.toordinal] numbers them).  Adding
    [timedelta(days=d)] adds [d] to the ordinal. *)

Definition datetime : Type := Z.

Definition _DAYS_IN_MONTH (m : Z) : Z :=
  match m with
  | 1 => 31 | 2 => 28 | 3 => 31 | 4 => 30 | 5 => 31 | 6 => 30
  | 7 => 31 | 8 => 31 | 9 => 30 | 10 => 31 | 11 => 30 | 12 => 31
  | _ => 0
  end%Z.

Definition _DAYS_BEFORE_MONTH (m : Z) : Z :=
  match m with
  | 1 => 0 | 2 => 31 | 3 => 59 | 4 => 90 | 5 => 120 | 6 => 151
  | 7 => 181 | 8 => 212 | 9 => 243 | 10 => 273 | 11 => 304 | 12 => 334
  | _ => 0
  end%Z.

(** Ordinal to (year, month, day). *)
Definition _ord2ymd (ordinal : Z) : Z * Z * Z :=
  (let n := ordinal - 1 in
   let n400 := n / 146097 in
   let n := n mod 146097 in
   let year := n400 * 400 + 1 in
   let n100 := n / 36524 in
   let n := n mod 36524 in
   let n4 := n / 1461 in
   let n := n mod 1461 in
   let n1 := n / 365 in
   let n := n mod 365 in
   let year := year + n100 * 100 + n4 * 4 + n1 in
   if (n1 =? 4) || (n100 =? 4) then (year - 1, 12, 31)
   else
     let leapyear := (n1 =? 3) && (negb (n4 =? 24) || (n100 =? 3)) in
     let month := Z.shiftr (n + 50) 5 in
     let preceding :=
       _DAYS_BEFORE_MONTH month
       + (if (2 <? month) && leapyear then 1 else 0) in
     if n <? preceding then
       let month := month - 1 in
       let preceding :=
         preceding - (_DAYS_IN_MONTH month
                      + (if (month =? 2) && leapyear then 1 else 0)) in
       (year, month, n - preceding + 1)
     else (year, month, n - preceding + 1))%Z.

Definition digit_char (d : Z) : ascii :=
  ascii_of_nat (48 + Z.to_nat (d mod 10)).

Definition two_digits (n : Z) : string :=
  String (digit_char (n / 10)) (String (digit_char n) EmptyString).

Definition four_digits (n : Z) : string :=
  String (digit_char (n / 1000))
    (String (digit_char (n / 100)) (two_digits n)).

(** [d.strftime('%Y-%m-%d')] *)
Definition strftime_Ymd (d : datetime) : string :=
  let '(y, m, dd) := _ord2ymd d in
  four_digits y ++ "-" ++ two_digits m ++ "-" ++ two_digits dd.

(** [(fecha_base + timedelta(days=30 * i)).strftime('%Y-%m-%d')] *)
Definition fecha_periodo (fecha_base : datetime) (i : Z) : string :=
  strftime_Ymd (fecha_base + 30 * i)%Z.

(** ** Amortization engine ([financial_calculator.py]) *)

Record FilaAmortizacion : Type := mkFila {
  periodo : Z;
  fecha : string;
  cuota : Q;
  capital : Q;
  interes : Q;
  saldo : Q;
  comision_mantenimiento : Q
}.

(** [contrato.tasa_nominal / 100 / 12] *)
Definition tasa_mensual_de (contrato : ContratoParseado) : Q :=
  fl (tasa_nominal contrato / 100 / 12).

(** The scan for the maintenance fee: the last fee tagged
    ["mantenimiento"] sets the monthly rate, [0] when there is none. *)
Definition comision_mant_de (contrato : ContratoParseado) : Q :=
  fold_left
    (fun acc com =>
       if String.eqb (Comision.tipo com) "mantenimiento"
       then fl (Comision.valor com / 100) else acc)
    (comisiones contrato) 0.

(** The fixed payment of the French method, as both [_amortizacion_francesa]
    and [_amortizacion_con_gracia] write it. *)
Definition cuota_fija (monto tasa_mensual : Q) (n : Z) : result Q :=
  if Qltb 0 tasa_mensual then
    py_div (monto * (tasa_mensual * (1 + tasa_mensual) ^ n))
           ((1 + tasa_mensual) ^ n - 1)
  else py_div monto (inject_Z n).

(** [len(range(a, b))] *)
Definition range_len (a b : Z) : nat := Z.to_nat (b - a).

Section Filas.
Variable fecha_base : datetime.
Variables tasa_mensual comision_mant : Q.

(** Body of the French-method loop, [k] iterations from period [i]. *)
Fixpoint filas_francesa (cuota : Q) (k : nat) (i : Z) (saldo : Q)
  : list FilaAmortizacion :=
  match k with
  | O => []
  | S k' =>
      let interes := fl (saldo * tasa_mensual) in
      let capital := fl (cuota - interes) in
      let mantenimiento := fl (saldo * comision_mant) in
      let saldo_nuevo := fl (py_max0 (saldo - capital)) in
      mkFila i (fecha_periodo fecha_base i) (py_round2 cuota)
             (py_round2 capital) (py_round2 interes)
             (py_round2 saldo_nuevo) (py_round2 mantenimiento)
      :: filas_francesa cuota k' (i + 1)%Z saldo_nuevo
  end.

(** Body of the bullet loop: principal is repaid when [i = n]. *)
Fixpoint filas_bullet (n : Z) (k : nat) (i : Z) (saldo : Q)
  : list FilaAmortizacion :=
  match k with
  | O => []
  | S k' =>
      let interes := fl (saldo * tasa_mensual) in
      let mantenimiento := fl (saldo * comision_mant) in
      let '(capital, cuota, saldo_nuevo) :=
        if (i =? n)%Z then (saldo, fl (saldo + interes), 0)
        else (0, interes, saldo) in
      mkFila i (fecha_periodo fecha_base i) (py_round2 cuota)
             (py_round2 capital) (py_round2 interes)
             (py_round2 saldo_nuevo) (py_round2 mantenimiento)
      :: filas_bullet n k' (i + 1)%Z saldo_nuevo
  end.

(** Body of the grace-period loop: interest only, balance unchanged. *)
Fixpoint filas_gracia (k : nat) (i : Z) (saldo : Q)
  : list FilaAmortizacion :=
  match k with
  | O => []
  | S k' =>
      let interes := fl (saldo * tasa_mensual) in
      let mantenimiento := fl (saldo * comision_mant) in
      mkFila i (fecha_periodo fecha_base i) (py_round2 interes)
             0 (py_round2 interes)
             (py_round2 saldo) (py_round2 mantenimiento)
      :: filas_gracia k' (i + 1)%Z saldo
  end.
End Filas.

Definition _amortizacion_francesa (fecha_base : datetime)
    (contrato : ContratoParseado) : result (list FilaAmortizacion) :=
  let monto := monto_principal contrato in
  let tasa_mensual := tasa_mensual_de contrato in
  let n := plazo_meses contrato in
  cuota <- cuota_fija monto tasa_mensual n ;;
  let comision_mant := comision_mant_de contrato in
  Ok (filas_francesa fecha_base tasa_mensual comision_mant cuota
        (range_len 1 (n + 1)) 1%Z monto).

Definition _amortizacion_bullet (fecha_base : datetime)
    (contrato : ContratoParseado) : result (list FilaAmortizacion) :=
  let monto := monto_principal contrato in
  let tasa_mensual := tasa_mensual_de contrato in
  let n := plazo_meses contrato in
  let comision_mant := comision_mant_de contrato in
  Ok (filas_bullet fecha_base tasa_mensual comision_mant n
        (range_len 1 (n + 1)) 1%Z monto).

Definition _amortizacion_con_gracia (fecha_base : datetime)
    (contrato : ContratoParseado) : result (list FilaAmortizacion) :=
  let monto := monto_principal contrato in
  let tasa_mensual := tasa_mensual_de contrato in
  let n_total := plazo_meses contrato in
  let n_gracia := periodo_gracia_meses contrato in
  let n_amortizacion := (n_total - n_gracia)%Z in
  let comision_mant := comision_mant_de contrato in
  let saldo := monto in
  let tabla :=
    filas_gracia fecha_base tasa_mensual comision_mant
      (range_len 1 (n_gracia + 1)) 1%Z saldo in
  if es_bullet contrato then
    Ok (tabla ++
        filas_bullet fecha_base tasa_mensual comision_mant n_total
          (range_len (n_gracia + 1) (n_total + 1)) (n_gracia + 1)%Z saldo)%list
  else
    cuota <- cuota_fija saldo tasa_mensual n_amortizacion ;;
    Ok (tabla ++
        filas_francesa fecha_base tasa_mensual comision_mant cuota
          (range_len (n_gracia + 1) (n_total + 1)) (n_gracia + 1)%Z saldo)%list.

Definition _generar_tabla_amortizacion (fecha_base : datetime)
    (contrato : ContratoParseado) : result (list FilaAmortizacion) :=
  if es_bullet contrato then _amortizacion_bullet fecha_base contrato
  else if (0 <? periodo_gracia_meses contrato)%Z
       then _amortizacion_con_gracia fecha_base contrato
       else _amortizacion_francesa fecha_base contrato.

(** ** Rate and cost calculator *)

(** Python sequences: [l[k]] and [l[:k]] with negative indices counted
    from the end. *)
Definition py_index {A : Type} (l : list A) (k : Z) : result A :=
  let len := Z.of_nat (List.length l) in
  let k' := if (k <? 0)%Z then (len + k)%Z else k in
  if (k' <? 0)%Z then Raise IndexError
  else match nth_error l (Z.to_nat k') with
       | Some a => Ok a
       | None => Raise IndexError
       end.

Definition py_slice_to {A : Type} (l : list A) (k : Z) : list A :=
  let len := Z.of_nat (List.length l) in
  let k' := if (k <? 0)%Z then (len + k)%Z else k in
  firstn (Z.to_nat k') l.

Definition _calcular_total_comisiones (contrato : ContratoParseado)
    (tabla : list FilaAmortizacion) : Q :=
  let total :=
    fold_left
      (fun total comision =>
         if String.eqb (Comision.tipo comision) "apertura" then
           if Comision.es_porcentaje comision
           then fl (total
                    + monto_principal contrato * Comision.valor comision / 100)
           else fl (total + Comision.valor comision)
         else if String.eqb (Comision.tipo comision) "seguro" then
           fl (total + Comision.valor comision)
         else if String.eqb (Comision.tipo comision) "mantenimiento" then
           fl (total + py_sum (map comision_mantenimiento tabla))
         else total)
      (comisiones contrato) 0 in
  py_round2 total.

(** [periodos_por_ano.get(contrato.frecuencia_pago, 12)] *)
Definition periodos_por_ano (f : FrecuenciaPago) : Z :=
  match f with
  | MENSUAL => 12
  | TRIMESTRAL => 4
  | SEMESTRAL => 2
  | ANUAL => 1
  | BULLET => 1
  end%Z.

Definition _calcular_tea (contrato : ContratoParseado) : Q :=
  let tasa_nominal := fl (tasa_nominal contrato / 100) in
  let n := periodos_por_ano (frecuencia_pago contrato) in
  let tea := fl (((1 + tasa_nominal / inject_Z n) ^ n - 1) * 100) in
  py_round2 tea.

Definition _calcular_cat (contrato : ContratoParseado)
    (total_intereses total_comisiones : Q) : Q :=
  let monto := monto_principal contrato in
  let plazo_anos := fl (inject_Z (plazo_meses contrato) / 12) in
  if Qis_zero plazo_anos || Qis_zero monto then 0
  else
    let total_pagado := fl (monto + total_intereses + total_comisiones) in
    let cat := fl (((total_pagado / monto - 1) / plazo_anos) * 100) in
    py_round2 cat.

(** Up-front fees, as [_calcular_vpn] and [_calcular_tir] accumulate them. *)
Definition comision_inicial_de (contrato : ContratoParseado) : Q :=
  fold_left
    (fun acc com =>
       if String.eqb (Comision.tipo com) "apertura"
          || String.eqb (Comision.tipo com) "seguro"
       then
         if Comision.es_porcentaje com
         then fl (acc + monto_principal contrato * Comision.valor com / 100)
         else fl (acc + Comision.valor com)
       else acc)
    (comisiones contrato) 0.

(** The discounting loop of [_calcular_vpn]: [i] is the index of the head
    of [flujos]. *)
Fixpoint descontar (tasa_descuento : Q) (flujos : list Q) (i : Z) (vpn : Q)
  : result Q :=
  match flujos with
  | [] => Ok vpn
  | flujo :: resto =>
      d <- py_div flujo ((1 + tasa_descuento) ^ i) ;;
      descontar tasa_descuento resto (i + 1)%Z (fl (vpn + d))
  end.

Definition _calcular_vpn (contrato : ContratoParseado)
    (tabla : list FilaAmortizacion) (total_comisiones : Q) : result Q :=
  let tasa_descuento := tasa_mensual_de contrato in
  let pagos :=
    map (fun fila => - (cuota fila + comision_mantenimiento fila)) tabla in
  let comision_inicial := comision_inicial_de contrato in
  let flujos :=
    fl (- monto_principal contrato - comision_inicial) :: pagos in
  vpn <- descontar tasa_descuento flujos 0%Z 0 ;;
  Ok (py_round2 vpn).

(** The nested dictionary read from [market_rates.json]. *)
#[warnings="-register-all"]
Inductive json : Type :=
| JNum (q : Q)
| JStr (s : string)
| JObj (kv : list (string * json)).

Definition json_truthy (j : json) : bool :=
  match j with
  | JNum q => negb (Qis_zero q)
  | JStr s => str_truthy s
  | JObj kv => list_truthy kv
  end.

Fixpoint assoc_get (k : string) (kv : list (string * json)) : option json :=
  match kv with
  | [] => None
  | (k', v) :: rest => if String.eqb k k' then Some v else assoc_get k rest
  end.

(** [d[k]] *)
Definition json_item (d : json) (k : string) : result json :=
  match d with
  | JObj kv =>
      match assoc_get k kv with
      | Some v => Ok v
      | None => Raise KeyError
      end
  | _ => Raise TypeError
  end.

Definition json_num (j : json) : result Q :=
  match j with
  | JNum q => Ok q
  | _ => Raise TypeError
  end.

(** The three keys of the comparison that [calcular] reads. *)
Record Comparacion : Type := mkComparacion {
  diferencia : Q;
  percentil : Z;
  evaluacion : string
}.

(** ** Sensitivity analyzer *)

(** A scenario literal and the text [f"{cambio}"] prints for it. *)
Definition escenarios : list (Q * string) :=
  [(-(1), "-1.0"); (-(1 # 2), "-0.5"); (0, "0");
   (1 # 2, "0.5"); (1, "1.0"); (2, "2.0")].

Record Escenario : Type := mkEscenario {
  cambio_tasa : string;
  tasa_resultante : Q;
  cuota_promedio : Q;
  esc_total_intereses : Q;
  impacto_vs_base : Q
}.

Record Sensibilidad : Type := mkSensibilidad {
  sens_escenarios : list Escenario;
  tiene_cap : bool;
  tiene_floor : bool;
  sens_cap : option Q;
  sens_floor : option Q;
  sens_indice_referencia : option string
}.

Definition is_not_None {A : Type} (o : option A) : bool :=
  match o with Some _ => true | None => false end.

(** The shifted rate of one scenario.  [if contrato.cap:] tests the
    truthiness of an [Optional[float]]: [None] and [0.0] are both false. *)
Definition nueva_tasa_de (contrato : ContratoParseado) (cambio : Q) : Q :=
  let nueva_tasa := fl (tasa_nominal contrato + cambio) in
  let nueva_tasa :=
    match cap contrato with
    | Some c => if Qis_zero c then nueva_tasa else py_min nueva_tasa c
    | None => nueva_tasa
    end in
  let nueva_tasa :=
    match floor contrato with
    | Some f => if Qis_zero f then nueva_tasa else py_max nueva_tasa f
    | None => nueva_tasa
    end in
  nueva_tasa.

(** The copy of the contract that a scenario recomputes. *)
Definition contrato_modificado_de (contrato : ContratoParseado)
    (nueva_tasa : Q) : ContratoParseado :=
  {| prestamista := EmptyString; prestatario := EmptyString; tramos := [];
     monto_principal := monto_principal contrato; moneda := "USD";
     tasa_nominal := nueva_tasa;
     tipo_tasa := FIJA; plazo_meses := plazo_meses contrato;
     frecuencia_pago := frecuencia_pago contrato;
     indice_referencia := None; spread_bps := None; cap := None;
     floor := None;
     periodo_gracia_meses := periodo_gracia_meses contrato;
     es_bullet := es_bullet contrato;
     garantias := []; tipo_garantia_general := SIN_GARANTIA;
     comisiones := comisiones contrato; prepago := None; covenants := [];
     clausulas_incumplimiento := []; tiene_cross_default := false;
     jurisdiccion := EmptyString; confianza_extraccion := 0;
     advertencias := []; texto_original := EmptyString |}.

Definition escenario_de (fecha_base : datetime) (contrato : ContratoParseado)
    (esc : Q * string) : result Escenario :=
  let '(cambio, texto) := esc in
  let nueva_tasa := nueva_tasa_de contrato cambio in
  let contrato_modificado := contrato_modificado_de contrato nueva_tasa in
  tabla <- _generar_tabla_amortizacion fecha_base contrato_modificado ;;
  let total_intereses := fl (py_sum (map interes tabla)) in
  let cuota_promedio :=
    if list_truthy tabla
    then fl (py_sum (map cuota tabla)
             / inject_Z (Z.of_nat (List.length tabla)))
    else 0 in
  base <- _generar_tabla_amortizacion fecha_base contrato ;;
  Ok {| cambio_tasa :=
          ((if Qltb cambio 0 then EmptyString else "+") ++ texto ++ "%")
          %string;
        tasa_resultante := py_round2 nueva_tasa;
        cuota_promedio := py_round2 cuota_promedio;
        esc_total_intereses := py_round2 total_intereses;
        impacto_vs_base :=
          py_round2 (total_intereses - py_sum (map interes base)) |}.

(** The scenario loop: the first exception ends it. *)
Fixpoint map_result {A B : Type} (f : A -> result B) (l : list A)
  : result (list B) :=
  match l with
  | [] => Ok []
  | a :: l' =>
      b <- f a ;;
      bs <- map_result f l' ;;
      Ok (b :: bs)
  end.

Definition _analisis_sensibilidad (fecha_base : datetime)
    (contrato : ContratoParseado) : result (option Sensibilidad) :=
  if negb (TipoTasa_eqb (tipo_tasa contrato) VARIABLE) then Ok None
  else
    resultados <- map_result (escenario_de fecha_base contrato) escenarios ;;
    Ok (Some {| sens_escenarios := resultados;
                tiene_cap := is_not_None (cap contrato);
                tiene_floor := is_not_None (floor contrato);
                sens_cap := cap contrato;
                sens_floor := floor contrato;
                sens_indice_referencia := indice_referencia contrato |}).

(** ** Prepayment simulator *)

Record ResultadoPrepago : Type := mkPrepago {
  ahorro_intereses : Q;
  penalizacion : Q;
  beneficio_neto : Q;
  recomendacion : string
}.

(** The simulation loop over [enumerate(tabla_original)]: [i] is the index
    of the head of [filas], [len] the length of the whole table.  It
    returns the rows of [tabla_prepago] as (period, balance, payment). *)
Fixpoint simular_prepago (tasa_mensual : Q) (mes_prepago : Z)
    (monto_prepago : Q) (len : Z) (filas : list FilaAmortizacion) (i : Z)
    (saldo_act : Q) : result (list (Z * Q * Q)) :=
  match filas with
  | [] => Ok []
  | fila :: resto =>
      let saldo_act :=
        if (i + 1 =? mes_prepago)%Z then
          let s := fl (saldo fila - monto_prepago) in
          if Qltb s 0 then 0 else s
        else saldo_act in
      if (mes_prepago <=? i + 1)%Z && Qltb 0 saldo_act then
        let periodos_restantes := (len - i - 1)%Z in
        nueva_cuota <-
          (if (0 <? periodos_restantes)%Z && Qltb 0 tasa_mensual then
             py_div
               (saldo_act
                * (tasa_mensual * (1 + tasa_mensual) ^ periodos_restantes))
               ((1 + tasa_mensual) ^ periodos_restantes - 1)
           else Ok saldo_act) ;;
        filas' <- simular_prepago tasa_mensual mes_prepago monto_prepago len
                    resto (i + 1)%Z saldo_act ;;
        Ok ((i + 1, py_round2 saldo_act, py_round2 nueva_cuota)%Z :: filas')
      else
        simular_prepago tasa_mensual mes_prepago monto_prepago len
          resto (i + 1)%Z saldo_act
  end.

Definition calcular_escenario_prepago (fecha_base : datetime)
    (contrato : ContratoParseado) (mes_prepago : Z) (monto_prepago : Q)
  : result ResultadoPrepago :=
  tabla_original <- _generar_tabla_amortizacion fecha_base contrato ;;
  let total_original := fl (py_sum (map interes tabla_original)) in
  let tasa_mensual := tasa_mensual_de contrato in
  let len := Z.of_nat (List.length tabla_original) in
  _tabla_prepago <-
    simular_prepago tasa_mensual mes_prepago monto_prepago len
      tabla_original 0%Z (monto_principal contrato) ;;
  let penalizacion :=
    match prepago contrato with
    | Some p =>
        if (mes_prepago <=? ClausulaPrepago.periodo_penalizacion_meses p)%Z
        then fl (monto_prepago * ClausulaPrepago.penalizacion p / 100)
        else 0
    | None => 0
    end in
  let total_con_prepago :=
    fl (py_sum (map interes
                  (py_slice_to tabla_original (mes_prepago - 1)%Z))) in
  saldo_reducido <-
    (if (mes_prepago <=? len)%Z then
       fila <- py_index tabla_original (mes_prepago - 1)%Z ;;
       Ok (fl (saldo fila - monto_prepago))
     else Ok 0) ;;
  let periodos_restantes := (plazo_meses contrato - mes_prepago)%Z in
  let intereses_restantes :=
    fl (saldo_reducido * tasa_mensual * inject_Z periodos_restantes
        * (1 # 2)) in
  let ahorro_intereses :=
    fl (total_original - total_con_prepago - intereses_restantes) in
  Ok {| ahorro_intereses := py_round2 ahorro_intereses;
        penalizacion := py_round2 penalizacion;
        beneficio_neto := py_round2 (ahorro_intereses - penalizacion);
        recomendacion :=
          if Qltb penalizacion ahorro_intereses
          then "Prepago recomendado" else "Evaluar conveniencia" |}.

(** ** Market benchmark and the complete financial result *)

Record ResultadoCalculo : Type := mkResultado {
  tasa_efectiva_anual : Q;
  costo_anual_total : Q;
  total_intereses : Q;
  total_comisiones : Q;
  costo_total_financiamiento : Q;
  cuota_mensual : Q;
  tabla_amortizacion : list FilaAmortizacion;
  valor_presente_neto : Q;
  tir : Q;
  diferencia_vs_mercado : Q;
  percentil_mercado : Z;
  evaluacion_mercado : string;
  sensibilidad : option Sensibilidad
}.

(** [try: ... except KeyError: handler] *)
Definition except_KeyError {A : Type} (m : result A) (handler : result A)
  : result A :=
  match m with
  | Raise KeyError => handler
  | _ => m
  end.

Section Calculadora.
(** [self.market_rates], loaded once when the calculator is built. *)
Variable market_rates : json.
(** [np.irr]; [Raise] stands for any exception it ends with. *)
Variable np_irr : list Q -> result Q.

Definition _calcular_tir (contrato : ContratoParseado)
    (tabla : list FilaAmortizacion) (total_comisiones : Q) : Q :=
  let comision_inicial := comision_inicial_de contrato in
  let flujos :=
    fl (- (monto_principal contrato - comision_inicial))
    :: map (fun fila => fl (cuota fila + comision_mantenimiento fila))
         tabla in
  match np_irr flujos with
  | Ok tir_mensual =>
      let tir_anual := fl (((1 + tir_mensual) ^ 12 - 1) * 100) in
      py_round2 tir_anual
  | Raise _ => _calcular_tea contrato
  end.

Definition _comparar_con_mercado (contrato : ContratoParseado) (tea : Q)
  : result Comparacion :=
  if negb (json_truthy market_rates) then
    Ok (mkComparacion 0 50 "Sin datos de mercado disponibles")
  else
    let monto := monto_principal contrato in
    let tipo_empresa :=
      if Qltb monto 500000 then "pyme"
      else if Qltb monto 5000000 then "mediana" else "grande" in
    let plazo := plazo_meses contrato in
    let tipo_plazo :=
      if (plazo <=? 12)%Z then "corto_plazo"
      else if (plazo <=? 36)%Z then "mediano_plazo" else "largo_plazo" in
    except_KeyError
      (a <- json_item market_rates "tasas_referencia" ;;
       b <- json_item a "por_tipo_empresa" ;;
       c <- json_item b tipo_empresa ;;
       tasas_ref <- json_item c tipo_plazo ;;
       j_promedio <- json_item tasas_ref "promedio" ;;
       j_max <- json_item tasas_ref "max" ;;
       j_min <- json_item tasas_ref "min" ;;
       tasa_promedio <- json_num j_promedio ;;
       let diferencia := fl (tea - tasa_promedio) in
       tasa_min <- json_num j_min ;;
       tasa_max <- json_num j_max ;;
       let percentil :=
         if negb (Qltb tasa_min tea) then 10%Z
         else if negb (Qltb tea tasa_max) then 90%Z
         else
           let rango := fl (tasa_max - tasa_min) in
           let posicion := fl (tea - tasa_min) in
           py_int (10 + (posicion / rango) * 80) in
       let evaluacion :=
         if Qltb diferencia (-(1)) then
           "Muy competitivo - Condiciones favorables"
         else if Qltb diferencia (1 # 2) then
           "Competitivo - En línea con el mercado"
         else if Qltb diferencia 2 then
           "Ligeramente elevado - Considerar negociar"
         else "Elevado - Revisar alternativas de financiamiento" in
       Ok (mkComparacion (py_round2 diferencia) percentil evaluacion))
      (Ok (mkComparacion 0 50 "Sin datos de mercado para este perfil")).

Definition calcular (fecha_base : datetime) (contrato : ContratoParseado)
  : result ResultadoCalculo :=
  tabla <- _generar_tabla_amortizacion fecha_base contrato ;;
  let total_intereses := fl (py_sum (map interes tabla)) in
  let total_comisiones := _calcular_total_comisiones contrato tabla in
  let tea := _calcular_tea contrato in
  let cat := _calcular_cat contrato total_intereses total_comisiones in
  let cuota :=
    match tabla with
    | fila :: _ => cuota fila
    | [] => 0
    end in
  let costo_total :=
    fl (monto_principal contrato + total_intereses + total_comisiones) in
  vpn <- _calcular_vpn contrato tabla total_comisiones ;;
  let tir := _calcular_tir contrato tabla total_comisiones in
  comparacion <- _comparar_con_mercado contrato tea ;;
  sensibilidad <-
    (if TipoTasa_eqb (tipo_tasa contrato) VARIABLE
     then _analisis_sensibilidad fecha_base contrato
     else Ok None) ;;
  Ok {| tasa_efectiva_anual := tea;
        costo_anual_total := cat;
        total_intereses := total_intereses;
        total_comisiones := total_comisiones;
        costo_total_financiamiento := costo_total;
        cuota_mensual := cuota;
        tabla_amortizacion := tabla;
        valor_presente_neto := vpn;
        tir := tir;
        diferencia_vs_mercado := diferencia comparacion;
        percentil_mercado := percentil comparacion;
        evaluacion_mercado := evaluacion comparacion;
        sensibilidad := sensibilidad |}.
End Calculadora.

(** ** Auxiliary notions used by the statements *)



(** [result] is a functor. *)
Definition result_map {A B : Type} (f : A -> B) (m : result A) : result B :=
  match m with
  | Ok a => Ok (f a)
  | Raise e => Raise e
  end.

(** A row stamped again for another clock reading: only [fecha] changes. *)
Definition refechar (fecha_base : datetime) (f : FilaAmortizacion)
  : FilaAmortizacion :=
  {| periodo := periodo f;
     fecha := fecha_periodo fecha_base (periodo f);
     cuota := cuota f; capital := capital f; interes := interes f;
     saldo := saldo f;
     comision_mantenimiento := comision_mantenimiento f |}.

Definition refechar_resultado (fecha_base : datetime) (r : ResultadoCalculo)
  : ResultadoCalculo :=
  {| tasa_efectiva_anual := tasa_efectiva_anual r;
     costo_anual_total := costo_anual_total r;
     total_intereses := total_intereses r;
     total_comisiones := total_comisiones r;
     costo_total_financiamiento := costo_total_financiamiento r;
     cuota_mensual := cuota_mensual r;
     tabla_amortizacion := map (refechar fecha_base) (tabla_amortizacion r);
     valor_presente_neto := valor_presente_neto r;
     tir := tir r;
     diferencia_vs_mercado := diferencia_vs_mercado r;
     percentil_mercado := percentil_mercado r;
     evaluacion_mercado := evaluacion_mercado r;
     sensibilidad := sensibilidad r |}.

(** The annuity payment as the specification words it:
    [balance * i * (1+i)^n / ((1+i)^n - 1)], and [principal / n] when [i]
    is [0]. *)
Definition pago_anualidad_spec (balance i : Q) (n : Z) : Q :=
  if Qis_zero i then balance / inject_Z n
  else balance * i * (1 + i) ^ n / ((1 + i) ^ n - 1).




(** The deduction table of the confidence score, as the specification
    lists it: the tested condition and the points it takes. *)
Definition tabla_deducciones (c : ContratoParseado) : list (bool * Q) :=
  [ (Qis_zero (monto_principal c), 20);
    (Qis_zero (tasa_nominal c) && TipoTasa_eqb (tipo_tasa c) FIJA, 15);
    ((plazo_meses c =? 0)%Z, 15);
    (negb (list_truthy (garantias c)), 5);
    (negb (list_truthy (comisiones c)), 5);
    (negb (str_truthy (prestamista c)), 5);
    (negb (str_truthy (prestatario c)), 5) ].

Definition deducciones_spec (c : ContratoParseado) : Q :=
  fold_right (fun (d : bool * Q) acc => (if fst d then snd d else 0) + acc) 0
    (tabla_deducciones c).


Definition confianza_spec (c : ContratoParseado) : Q :=
  Qmin 100 (Qmax 0 (100 - deducciones_spec c)).









(** The rates that a sensitivity analysis reports, one per scenario. *)
Definition tasas_reportadas (r : result (option Sensibilidad))
  : result (option (list Q)) :=
  result_map
    (option_map (fun s => map tasa_resultante (sens_escenarios s))) r.


(** ** Example contracts *)

(** [ContratoParseado()] with its financial fields assigned. *)
Definition contrato_con (monto tasa : Q) (tipo : TipoTasa) (plazo : Z)
    (frecuencia : FrecuenciaPago) (cap floor : option Q) (gracia : Z)
    (bullet : bool) (prepago : option ClausulaPrepago.t)
  : ContratoParseado :=
  {| prestamista := EmptyString; prestatario := EmptyString; tramos := [];
     monto_principal := monto; moneda := "USD"; tasa_nominal := tasa;
     tipo_tasa := tipo; plazo_meses := plazo; frecuencia_pago := frecuencia;
     indice_referencia := None; spread_bps := None; cap := cap;
     floor := floor; periodo_gracia_meses := gracia; es_bullet := bullet;
     garantias := []; tipo_garantia_general := SIN_GARANTIA;
     comisiones := []; prepago := prepago; covenants := [];
     clausulas_incumplimiento := []; tiene_cross_default := false;
     jurisdiccion := EmptyString; confianza_extraccion := 0;
     advertencias := []; texto_original := EmptyString |}.

(** 100,000 at 12% over 12 months, monthly, no fees. *)
Definition contrato_ejemplo : ContratoParseado :=
  contrato_con 100000 12 FIJA 12 MENSUAL None None 0 false None.



(** A loan whose grace period equals its term. *)
Definition contrato_gracia_total : ContratoParseado :=
  contrato_con 100000 12 FIJA 12 MENSUAL None None 12 false None.



(** Variable rate of 0.5% with a floor of 0%. *)
Definition contrato_piso_cero : ContratoParseado :=
  contrato_con 100000 0.5 VARIABLE 12 MENSUAL None (Some 0) 0 false None.

(** Prepayment clause with a 2% penalty in the first 12 months. *)
Definition clausula_ejemplo (permitido : bool) : ClausulaPrepago.t :=
  ClausulaPrepago.mk permitido 2 12 "Penalización 2% en primeros 12 meses".

Definition contrato_prepago (permitido : bool) : ContratoParseado :=
  contrato_con 100000 12 FIJA 12 MENSUAL None None 0 false
    (Some (clausula_ejemplo permitido)).

(** ** Critical periods and the financial summary *)










(** ** Guarantee type ([contract_parser.py]) *)

Definition TipoGarantia_eqb (a b : TipoGarantia) : bool :=
  match a, b with
  | REAL, REAL | PERSONAL, PERSONAL | MIXTA, MIXTA
  | SIN_GARANTIA, SIN_GARANTIA => true
  | _, _ => false
  end.

Definition _determinar_tipo_garantia (garantias : list Garantia.t)
    : TipoGarantia :=
  if negb (list_truthy garantias) then SIN_GARANTIA
  else
    let tiene_real :=
      existsb (fun g => TipoGarantia_eqb (Garantia.tipo_general g) REAL)
              garantias in
    let tiene_personal :=
      existsb (fun g => TipoGarantia_eqb (Garantia.tipo_general g) PERSONAL)
              garantias in
    if tiene_real && tiene_personal then MIXTA
    else if tiene_real then REAL
    else if tiene_personal then PERSONAL
    else SIN_GARANTIA.

(** ** Risk assessor ([risk_assessor.py]) *)

Inductive NivelRiesgo : Type := MUY_BAJO | BAJO | MODERADO | ALTO | MUY_ALTO.

Inductive SeveridadRedFlag : Type := BAJA | MEDIA | ALTA | CRITICA.

Module RedFlag.
Record t : Type := mk {
  tipo : string;
  descripcion : string;
  severidad : SeveridadRedFlag;
  recomendacion : string;
  impacto_score : Z
}.
End RedFlag.

Module ScoreCategoria.
Record t : Type := mk {
  categoria : string;
  score : Z;
  nivel : NivelRiesgo;
  factores : list string;
  peso : Q
}.
End ScoreCategoria.

Definition _score_a_nivel (score : Z) : NivelRiesgo :=
  if (80 <=? score)%Z then MUY_BAJO
  else if (60 <=? score)%Z then BAJO
  else if (40 <=? score)%Z then MODERADO
  else if (20 <=? score)%Z then ALTO
  else MUY_ALTO.

Definition _determinar_nivel_riesgo (score : Z) : NivelRiesgo :=
  _score_a_nivel score.

Definition _interpretar_score (score : Z) : string :=
  if (80 <=? score)%Z then "Riesgo muy bajo - Condiciones muy favorables"
  else if (60 <=? score)%Z
  then "Riesgo bajo - Condiciones generalmente aceptables"
  else if (40 <=? score)%Z
  then "Riesgo moderado - Requiere atención en algunos aspectos"
  else if (20 <=? score)%Z
  then "Riesgo alto - Múltiples aspectos preocupantes"
  else "Riesgo muy alto - Condiciones significativamente desfavorables".

(** [max(0, min(100, score))] on integers. *)
Definition acotar_score (score : Z) : Z := Z.max 0 (Z.min 100 score).

(** The liquidity category.  [score] and [factores] are the two local
    variables the method updates step by step. *)
Definition _evaluar_riesgo_liquidez (contrato : ContratoParseado)
    (resultado : ResultadoCalculo) : ScoreCategoria.t :=
  let score := 100%Z in
  let factores : list string := [] in
  (* Factor 1 *)
  let '(score, factores) :=
    if Qltb 0 (monto_principal contrato) then
      let ratio_cuota :=
        fl (fl (cuota_mensual resultado * 12) / monto_principal contrato) in
      if Qltb (6 # 10) ratio_cuota then
        ((score - 30)%Z,
         (factores ++ ["Cuota anual representa más del 60% del monto"])%list)
      else if Qltb (4 # 10) ratio_cuota then
        ((score - 15)%Z,
         (factores ++ ["Cuota anual representa más del 40% del monto"])%list)
      else (score, factores)
    else (score, factores) in
  (* Factor 2 *)
  let '(score, factores) :=
    if es_bullet contrato then
      ((score - 20)%Z,
       (factores ++ ["Pago bullet concentra riesgo al vencimiento"])%list)
    else (score, factores) in
  (* Factor 3 *)
  let '(score, factores) :=
    if (0 <? periodo_gracia_meses contrato)%Z then
      if (12 <=? periodo_gracia_meses contrato)%Z then
        ((score - 10)%Z,
         (factores
          ++ ["Período de gracia largo puede ocultar problemas de flujo"])%list)
      else
        ((score + 5)%Z,
         (factores
          ++ ["Período de gracia moderado mejora liquidez inicial"])%list)
    else (score, factores) in
  (* Factor 4 *)
  let '(score, factores) :=
    match frecuencia_pago contrato with
    | ANUAL =>
        ((score - 10)%Z,
         (factores ++ ["Pagos anuales concentran presión de liquidez"])%list)
    | MENSUAL =>
        ((score + 5)%Z,
         (factores ++ ["Pagos mensuales distribuyen mejor el flujo"])%list)
    | _ => (score, factores)
    end in
  (* Factor 5 *)
  let '(score, factores) :=
    if (60 <? plazo_meses contrato)%Z then
      ((score + 10)%Z,
       (factores ++ ["Plazo largo reduce presión de pagos"])%list)
    else if (plazo_meses contrato <? 12)%Z then
      ((score - 15)%Z,
       (factores ++ ["Plazo corto genera alta presión de pagos"])%list)
    else (score, factores) in
  let score := acotar_score score in
  let nivel := _score_a_nivel score in
  {| ScoreCategoria.categoria := "Liquidez";
     ScoreCategoria.score := score;
     ScoreCategoria.nivel := nivel;
     ScoreCategoria.factores := factores;
     ScoreCategoria.peso := 25 # 100 |}.

(** [sum(rf.impacto_score for rf in red_flags)] *)
Definition impacto_de (red_flags : list RedFlag.t) : Z :=
  fold_left Z.add (map RedFlag.impacto_score red_flags) 0%Z.

Definition _calcular_score_total (scores_categorias : list ScoreCategoria.t)
    (red_flags : list RedFlag.t) : Z :=
  let '(score_ponderado, total_peso) :=
    fold_left
      (fun '(score_ponderado, total_peso) sc =>
         (fl (score_ponderado
              + inject_Z (ScoreCategoria.score sc) * ScoreCategoria.peso sc),
          fl (total_peso + ScoreCategoria.peso sc)))
      scores_categorias (0, 0) in
  let score_base :=
    if Qltb 0 total_peso then fl (score_ponderado / total_peso) else 50 in
  let impacto_flags := impacto_de red_flags in
  let score_final := fl (score_base + inject_Z impacto_flags) in
  acotar_score (py_int score_final).

Definition es_flag_critico (rf : RedFlag.t) : bool :=
  match RedFlag.severidad rf with
  | ALTA | CRITICA => true
  | _ => false
  end.

(** Returns the pair [(recomendacion, accion)]. *)
Definition _generar_recomendacion (score : Z) (red_flags : list RedFlag.t)
    (resultado : ResultadoCalculo) : string * string :=
  let num_flags_criticos :=
    Z.of_nat (List.length (filter es_flag_critico red_flags)) in
  if (70 <=? score)%Z && (num_flags_criticos =? 0)%Z then
    ("El contrato presenta condiciones generalmente favorables. Se recomienda proceder con la firma tras revisión legal estándar.",
     "Aceptar")
  else if (50 <=? score)%Z
          || ((40 <=? score)%Z && (num_flags_criticos <=? 1)%Z) then
    ("El contrato presenta áreas de mejora significativas. Se recomienda negociar los puntos identificados antes de proceder.",
     "Negociar")
  else
    ("El contrato presenta condiciones desfavorables o riesgos elevados. Se recomienda buscar alternativas de financiamiento o renegociar sustancialmente.",
     "Rechazar").
(** ** Further notions used by the statements *)















(** A result with every number at 0 and an empty schedule. *)
Definition resultado_vacio : ResultadoCalculo :=
  {| tasa_efectiva_anual := 0; costo_anual_total := 0;
     total_intereses := 0; total_comisiones := 0;
     costo_total_financiamiento := 0; cuota_mensual := 0;
     tabla_amortizacion := []; valor_presente_neto := 0; tir := 0;
     diferencia_vs_mercado := 0; percentil_mercado := 50;
     evaluacion_mercado := "Sin datos de mercado disponibles";
     sensibilidad := None |}.

(** The kinds of guarantee present in a list. *)
Definition hay_garantia (t : TipoGarantia) (garantias : list Garantia.t)
    : Prop :=
  In t (map Garantia.tipo_general garantias).

(** Risk levels from the riskiest ([0]) to the safest ([4]). *)
Definition rango_nivel (n : NivelRiesgo) : Z :=
  match n with
  | MUY_ALTO => 0
  | ALTO => 1
  | MODERADO => 2
  | BAJO => 3
  | MUY_BAJO => 4
  end.

(** The sentence that goes with each risk level. *)
Definition texto_de_nivel (n : NivelRiesgo) : string :=
  match n with
  | MUY_BAJO => "Riesgo muy bajo - Condiciones muy favorables"
  | BAJO => "Riesgo bajo - Condiciones generalmente aceptables"
  | MODERADO => "Riesgo moderado - Requiere atención en algunos aspectos"
  | ALTO => "Riesgo alto - Múltiples aspectos preocupantes"
  | MUY_ALTO =>
      "Riesgo muy alto - Condiciones significativamente desfavorables"
  end.

(** Suggested actions from the worst ([0]) to the best ([2]). *)
Definition rango_accion (accion : string) : Z :=
  if String.eqb accion "Aceptar" then 2
  else if String.eqb accion "Negociar" then 1
  else 0.


Definition categoria_de (s : Z) (p : Q) : ScoreCategoria.t :=
  {| ScoreCategoria.categoria := "Liquidez"; ScoreCategoria.score := s;
     ScoreCategoria.nivel := _score_a_nivel s; ScoreCategoria.factores := [];
     ScoreCategoria.peso := p |}.

Definition flag_de (s : SeveridadRedFlag) (impacto : Z) : RedFlag.t :=
  {| RedFlag.tipo := "sin_cap";
     RedFlag.descripcion := "Tasa variable sin límite máximo (cap)";
     RedFlag.severidad := s;
     RedFlag.recomendacion :=
       "Exigir inclusión de cap para limitar exposición";
     RedFlag.impacto_score := impacto |}.




(** * Properties *)

(** ** Arithmetic of the numeric model *)

Lemma fl_correct (x : Q) : fl x == x.
Proof. apply Qred_correct. Qed.

Lemma Qltb_true (x y : Q) : Qltb x y = true <-> x < y.
Proof. unfold Qltb, Qlt. apply Z.ltb_lt. Qed.

Lemma Qltb_false (x y : Q) : Qltb x y = false <-> y <= x.
Proof. unfold Qltb, Qle. rewrite Z.ltb_ge. reflexivity. Qed.

Lemma Qis_zero_true (x : Q) : Qis_zero x = true <-> x == 0.
Proof. unfold Qis_zero. apply Qeq_bool_iff. Qed.


#[global] Instance fl_Proper : Proper (Qeq ==> Qeq) fl.
Proof. intros x y H. rewrite !fl_correct. exact H. Qed.

#[global] Instance Qltb_Proper : Proper (Qeq ==> Qeq ==> eq) Qltb.
Proof.
  intros x x' Hx y y' Hy.
  destruct (Qltb x y) eqn:E, (Qltb x' y') eqn:E'; try reflexivity.
  - apply Qltb_true in E. apply Qltb_false in E'. lra.
  - apply Qltb_false in E. apply Qltb_true in E'. lra.
Qed.

Lemma py_max0_nonneg (x : Q) : 0 <= x -> py_max0 x == x.
Proof.
  intros H. unfold py_max0. destruct (Qltb 0 x) eqn:E; [reflexivity|].
  apply Qltb_false in E. lra.
Qed.

Lemma py_max0_ge0 (x : Q) : 0 <= py_max0 x.
Proof.
  unfold py_max0. destruct (Qltb 0 x) eqn:E; [|lra].
  apply Qltb_true in E. lra.
Qed.

Lemma round_half_even_mono (x y : Q) :
  x <= y -> (round_half_even x <= round_half_even y)%Z.
Proof.
  destruct x as [a b], y as [c d]. unfold Qle, round_half_even.
  cbn [Qnum Qden].
  intros H.
  pose proof (Z.div_mod a (Zpos b) ltac:(lia)) as Ea.
  pose proof (Z.div_mod c (Zpos d) ltac:(lia)) as Ec.
  pose proof (Z.mod_pos_bound a (Zpos b) ltac:(lia)) as Ba.
  pose proof (Z.mod_pos_bound c (Zpos d) ltac:(lia)) as Bc.
  set (fa := (a / Zpos b)%Z) in *. set (ra := (a mod Zpos b)%Z) in *.
  set (fc := (c / Zpos d)%Z) in *. set (rc := (c mod Zpos d)%Z) in *.
  assert (Hf : (fa <= fc)%Z).
  { destruct (Z_le_gt_dec fa fc) as [|Hgt]; [assumption|exfalso].
    assert (H1 : (Zpos b * Zpos d * (fc + 1) <= Zpos b * Zpos d * fa)%Z)
      by (apply Z.mul_le_mono_nonneg_l; lia).
    assert (H2 : (Zpos b * rc < Zpos b * Zpos d)%Z)
      by (apply Z.mul_lt_mono_pos_l; lia).
    assert (H3 : (0 <= ra * Zpos d)%Z) by (apply Z.mul_nonneg_nonneg; lia).
    rewrite Ea, Ec in H. lia. }
  destruct (Z.eq_dec fa fc) as [E|NE].
  - rewrite <- E in *. clear E.
    assert (Hr : (ra * Zpos d <= rc * Zpos b)%Z)
      by (rewrite Ea, Ec in H; lia).
    clear H Ea Ec.
    rewrite <- (Zcompare_mult_compat d (2 * ra) (Zpos b)).
    rewrite <- (Zcompare_mult_compat b (2 * rc) (Zpos d)).
    destruct (Z.compare_spec (Zpos d * (2 * ra)) (Zpos d * Zpos b));
    destruct (Z.compare_spec (Zpos b * (2 * rc)) (Zpos b * Zpos d));
    destruct (Z.even fa); lia.
  - destruct (Z.compare_spec (2 * ra) (Zpos b));
    destruct (Z.compare_spec (2 * rc) (Zpos d));
    destruct (Z.even fa); destruct (Z.even fc); lia.
Qed.




Lemma round_half_even_compat (x y : Q) :
  x == y -> round_half_even x = round_half_even y.
Proof.
  intros H. apply Z.le_antisymm; apply round_half_even_mono; lra.
Qed.

Lemma py_round2_compat (x y : Q) : x == y -> py_round2 x = py_round2 y.
Proof.
  intros H. unfold py_round2. f_equal. apply round_half_even_compat. lra.
Qed.


#[global] Instance py_round2_Proper : Proper (Qeq ==> eq) py_round2.
Proof. intros x y H. apply py_round2_compat, H. Qed.



(** ** Balances of the amortization schedule *)









#[global] Instance py_max0_Proper : Proper (Qeq ==> Qeq) py_max0.
Proof.
  intros x y H. unfold py_max0. rewrite H.
  destruct (Qltb 0 y); [exact H | reflexivity].
Qed.


Section FilasFrancesa.
Variable fecha_base : datetime.
Variables t com cuota : Q.
Hypothesis Ht : 0 <= t.
Hypothesis Hcuota : 0 <= cuota.


End FilasFrancesa.

Section FilasBulletGracia.
Variable fecha_base : datetime.
Variables t com : Q.


End FilasBulletGracia.





(** ** When a schedule is produced *)




Lemma cuota_fija_plazo_0 (monto t : Q) :
  cuota_fija monto t 0 = Raise ZeroDivisionError.
Proof.
  unfold cuota_fija, py_div. destruct (Qltb 0 t); reflexivity.
Qed.


(** ** The clock only reaches the [fecha] field *)

Section Refechar.
Variables fb fb' : datetime.

Lemma filas_francesa_refechar (t com cuota : Q) (k : nat) :
  forall (i : Z) (s : Q),
    filas_francesa fb t com cuota k i s
    = map (refechar fb) (filas_francesa fb' t com cuota k i s).
Proof.
  induction k as [|k IH]; intros i s; [reflexivity|].
  cbn [filas_francesa map]. rewrite <- IH. reflexivity.
Qed.

Lemma filas_bullet_refechar (t com : Q) (n : Z) (k : nat) :
  forall (i : Z) (s : Q),
    filas_bullet fb t com n k i s
    = map (refechar fb) (filas_bullet fb' t com n k i s).
Proof.
  induction k as [|k IH]; intros i s; [reflexivity|].
  cbn [filas_bullet]. destruct (i =? n)%Z;
    cbn [map]; rewrite <- IH; reflexivity.
Qed.

Lemma filas_gracia_refechar (t com : Q) (k : nat) :
  forall (i : Z) (s : Q),
    filas_gracia fb t com k i s
    = map (refechar fb) (filas_gracia fb' t com k i s).
Proof.
  induction k as [|k IH]; intros i s; [reflexivity|].
  cbn [filas_gracia map]. rewrite <- IH. reflexivity.
Qed.

Lemma tabla_refechar (c : ContratoParseado) :
  _generar_tabla_amortizacion fb c
  = result_map (map (refechar fb)) (_generar_tabla_amortizacion fb' c).
Proof.
  unfold _generar_tabla_amortizacion, _amortizacion_bullet,
    _amortizacion_con_gracia, _amortizacion_francesa.
  destruct (es_bullet c).
  - cbn [result_map]. f_equal. apply filas_bullet_refechar.
  - destruct (0 <? periodo_gracia_meses c)%Z.
    + destruct (cuota_fija _ _ _) as [cuota|e]; cbn [bind result_map];
        [|reflexivity].
      f_equal. rewrite map_app. f_equal.
      * apply filas_gracia_refechar.
      * apply filas_francesa_refechar.
    + destruct (cuota_fija _ _ _) as [cuota|e]; cbn [bind result_map];
        [|reflexivity].
      f_equal. apply filas_francesa_refechar.
Qed.
End Refechar.

Lemma map_interes_refechar fb l :
  map interes (map (refechar fb) l) = map interes l.
Proof. rewrite map_map. reflexivity. Qed.
Lemma map_cuota_refechar fb l :
  map cuota (map (refechar fb) l) = map cuota l.
Proof. rewrite map_map. reflexivity. Qed.
Lemma map_saldo_refechar fb l :
  map saldo (map (refechar fb) l) = map saldo l.
Proof. rewrite map_map. reflexivity. Qed.
Lemma map_mant_refechar fb l :
  map comision_mantenimiento (map (refechar fb) l)
  = map comision_mantenimiento l.
Proof. rewrite map_map. reflexivity. Qed.
Lemma list_truthy_map {A B} (f : A -> B) l :
  list_truthy (map f l) = list_truthy l.
Proof. destruct l; reflexivity. Qed.

Lemma escenario_refechar (fb fb' : datetime) (c : ContratoParseado)
    (esc : Q * string) :
  escenario_de fb c esc = escenario_de fb' c esc.
Proof.
  unfold escenario_de. destruct esc as [cambio texto].
  rewrite (tabla_refechar fb fb' (contrato_modificado_de c _)).
  rewrite (tabla_refechar fb fb' c).
  destruct (_generar_tabla_amortizacion fb' (contrato_modificado_de c _))
    as [tabla|e]; cbn [result_map bind]; [|reflexivity].
  destruct (_generar_tabla_amortizacion fb' c) as [base|e];
    cbn [result_map bind]; [|reflexivity].
  rewrite !map_interes_refechar, !map_cuota_refechar, list_truthy_map,
    length_map.
  reflexivity.
Qed.

Lemma sensibilidad_refechar (fb fb' : datetime) (c : ContratoParseado) :
  _analisis_sensibilidad fb c = _analisis_sensibilidad fb' c.
Proof.
  unfold _analisis_sensibilidad.
  destruct (negb (TipoTasa_eqb (tipo_tasa c) VARIABLE)); [reflexivity|].
  f_equal. induction escenarios as [|e l IH]; [reflexivity|].
  cbn [map_result]. rewrite IH, (escenario_refechar fb fb'). reflexivity.
Qed.

Lemma simular_prepago_refechar (fb : datetime) (t : Q) (mes : Z) (monto : Q)
    (len : Z) (filas : list FilaAmortizacion) :
  forall (i : Z) (s : Q),
    simular_prepago t mes monto len (map (refechar fb) filas) i s
    = simular_prepago t mes monto len filas i s.
Proof.
  induction filas as [|f l IH]; intros i s; [reflexivity|].
  cbn [map simular_prepago]. rewrite !IH. reflexivity.
Qed.

Lemma py_index_map {A B : Type} (f : A -> B) (l : list A) (k : Z) :
  py_index (map f l) k = result_map f (py_index l k).
Proof.
  unfold py_index. rewrite length_map.
  destruct (_ <? 0)%Z; [reflexivity|].
  rewrite nth_error_map. destruct (nth_error l _); reflexivity.
Qed.

Lemma py_slice_to_map {A B : Type} (f : A -> B) (l : list A) (k : Z) :
  py_slice_to (map f l) k = map f (py_slice_to l k).
Proof. unfold py_slice_to. rewrite length_map, firstn_map. reflexivity. Qed.

Lemma prepago_refechar (fb fb' : datetime) (c : ContratoParseado)
    (mes : Z) (monto : Q) :
  calcular_escenario_prepago fb c mes monto
  = calcular_escenario_prepago fb' c mes monto.
Proof.
  unfold calcular_escenario_prepago.
  rewrite (tabla_refechar fb fb' c).
  destruct (_generar_tabla_amortizacion fb' c) as [tabla|e];
    cbn [result_map bind]; [|reflexivity].
  rewrite simular_prepago_refechar, length_map, py_slice_to_map,
    py_index_map, !map_interes_refechar.
  destruct (simular_prepago _ _ _ _ _ _ _); cbn [bind]; [|reflexivity].
  destruct (mes <=? _)%Z; [|reflexivity].
  destruct (py_index tabla _); reflexivity.
Qed.

Lemma calcular_refechar (mr : json) (irr : list Q -> result Q)
    (fb fb' : datetime) (c : ContratoParseado) :
  calcular mr irr fb c
  = result_map (refechar_resultado fb) (calcular mr irr fb' c).
Proof.
  unfold calcular.
  rewrite (tabla_refechar fb fb' c), (sensibilidad_refechar fb fb' c).
  destruct (_generar_tabla_amortizacion fb' c) as [tabla|e];
    cbn [result_map bind]; [|reflexivity].
  assert (Ec : _calcular_total_comisiones c (map (refechar fb) tabla)
               = _calcular_total_comisiones c tabla).
  { unfold _calcular_total_comisiones. rewrite map_mant_refechar.
    reflexivity. }
  assert (Ev : forall tc, _calcular_vpn c (map (refechar fb) tabla) tc
               = _calcular_vpn c tabla tc).
  { intros tc. unfold _calcular_vpn. rewrite map_map. reflexivity. }
  assert (Et : forall tc, _calcular_tir irr c (map (refechar fb) tabla) tc
               = _calcular_tir irr c tabla tc).
  { intros tc. unfold _calcular_tir. rewrite map_map. reflexivity. }
  rewrite Ec, Ev, Et, map_interes_refechar.
  destruct (_calcular_vpn c tabla _); cbn [bind result_map]; [|reflexivity].
  destruct (_comparar_con_mercado mr c _); cbn [bind result_map];
    [|reflexivity].
  destruct (if TipoTasa_eqb (tipo_tasa c) VARIABLE
            then _analisis_sensibilidad fb' c else Ok None);
    cbn [bind result_map]; [|reflexivity].
  unfold refechar_resultado. cbn.
  destruct tabla; reflexivity.
Qed.

(** ** Rows are rounded field by field *)









(** ** The fixed payment *)



(** ** Scenario rates *)







(** ** Confidence score *)

Lemma fst_penalizar (b : bool) (p : Q) (w : option string)
    (st : Q * ContratoParseado) :
  fst (penalizar b p w st) == fst st - (if b then p else 0).
Proof. unfold penalizar. destruct b; cbn [fst]; ring. Qed.


Lemma deduccion_acotada (b : bool) (p : Q) :
  0 <= p -> 0 <= (if b then p else 0) <= p.
Proof. intros H. destruct b; lra. Qed.

Lemma confianza_puntaje (c : ContratoParseado) :
  fst (_calcular_confianza c) == confianza_spec c.
Proof.
  unfold _calcular_confianza, confianza_spec, deducciones_spec,
    tabla_deducciones.
  cbn [fold_right fst snd]. rewrite !fst_penalizar. cbn [fst].
  set (x1 := if Qis_zero (monto_principal c) then 20 else 0).
  set (x2 := if Qis_zero (tasa_nominal c) && TipoTasa_eqb (tipo_tasa c) FIJA
             then 15 else 0).
  set (x3 := if (plazo_meses c =? 0)%Z then 15 else 0).
  set (x4 := if negb (list_truthy (garantias c)) then 5 else 0).
  set (x5 := if negb (list_truthy (comisiones c)) then 5 else 0).
  set (x6 := if negb (str_truthy (prestamista c)) then 5 else 0).
  set (x7 := if negb (str_truthy (prestatario c)) then 5 else 0).
  assert (H1 : 0 <= x1 <= 20) by (apply deduccion_acotada; lra).
  assert (H2 : 0 <= x2 <= 15) by (apply deduccion_acotada; lra).
  assert (H3 : 0 <= x3 <= 15) by (apply deduccion_acotada; lra).
  assert (H4 : 0 <= x4 <= 5) by (apply deduccion_acotada; lra).
  assert (H5 : 0 <= x5 <= 5) by (apply deduccion_acotada; lra).
  assert (H6 : 0 <= x6 <= 5) by (apply deduccion_acotada; lra).
  assert (H7 : 0 <= x7 <= 5) by (apply deduccion_acotada; lra).
  clearbody x1 x2 x3 x4 x5 x6 x7.
  rewrite py_max0_nonneg by lra.
  rewrite Q.max_r by lra. rewrite Q.min_r by lra. ring.
Qed.


(** * The claims of the specification *)

(** ** Amortization schedule *)



(** C2. The loan of 100,000 at 12% over 12 months, monthly and without
    fees, is amortized by the French method in exactly 12 rows; every row
    carries the payment 8,884.88, which is the specification's annuity
    formula at i = 12/100/12 and n = 12 rounded to cents; the balance of
    the last row is 0 within 0.01.  This holds at every clock reading. *)
Theorem escenario_100000_12_12 (fecha_base : datetime) :
  exists tabla,
    _generar_tabla_amortizacion fecha_base contrato_ejemplo = Ok tabla
    /\ List.length tabla = 12%nat
    /\ Forall (fun f => cuota f = 8884.88) tabla
    /\ py_round2 (pago_anualidad_spec 100000 (12 / 100 / 12) 12) = 8884.88
    /\ forall d, Qabs (saldo (last tabla d)) <= 0.01.
Proof.
  rewrite (tabla_refechar fecha_base 0%Z).
  remember (_generar_tabla_amortizacion 0%Z contrato_ejemplo) as r eqn:E.
  vm_compute in E. subst r. cbn [result_map].
  eexists. split; [reflexivity|].
  cbn [map refechar periodo cuota capital interes saldo
       comision_mantenimiento List.length last].
  split; [reflexivity|]. split; [repeat constructor|].
  split; [vm_compute; reflexivity|].
  intros d. vm_compute. discriminate.
Qed.

(** C3. The claim that schedule generation never raises on a zero term
    fails on the code: for every contract that is not a bullet loan and
    whose term equals its grace period (in particular term 0 with grace 0,
    the defaulted contract), the engine ends with [ZeroDivisionError].  The
    guard that [_calcular_cat] has ([_calcular_cat_guardado]) is missing in
    the French method. *)
Theorem tabla_plazo_cero_lanza
    (fecha_base : datetime) (c : ContratoParseado) :
  es_bullet c = false ->
  (plazo_meses c = periodo_gracia_meses c)%Z ->
  (0 <= periodo_gracia_meses c)%Z ->
  _generar_tabla_amortizacion fecha_base c = Raise ZeroDivisionError.
Proof.
  intros Hb Hp Hg. unfold _generar_tabla_amortizacion. rewrite Hb.
  destruct (0 <? periodo_gracia_meses c)%Z eqn:E.
  - unfold _amortizacion_con_gracia. rewrite Hb, Hp, Z.sub_diag.
    rewrite cuota_fija_plazo_0. reflexivity.
  - apply Z.ltb_ge in E. unfold _amortizacion_francesa.
    replace (plazo_meses c) with 0%Z by lia.
    rewrite cuota_fija_plazo_0. reflexivity.
Qed.

Lemma tabla_plazo_cero_lanza_witness :
  _generar_tabla_amortizacion 739000%Z ContratoParseado_default
  = Raise ZeroDivisionError
  /\ _generar_tabla_amortizacion 739000%Z contrato_gracia_total
     = Raise ZeroDivisionError.
Proof.
  split.
  - apply (tabla_plazo_cero_lanza 739000%Z ContratoParseado_default);
      [reflexivity | reflexivity | vm_compute; discriminate].
  - apply (tabla_plazo_cero_lanza 739000%Z contrato_gracia_total);
      [reflexivity | reflexivity | vm_compute; discriminate].
Defined.




(** ** Confidence scorer *)

(** C5, as stated, fails on its example: the contract with every field at
    its default scores 30, not 45. *)
Lemma confianza_degenerada_no_45 :
  fst (_calcular_confianza ContratoParseado_default) = 30
  /\ ~ fst (_calcular_confianza ContratoParseado_default) == 45.
Proof. split; vm_compute; [reflexivity | discriminate]. Qed.

(** C5, amended.  The score is 100 minus the deduction table (principal 0:
    20; rate 0 with a fixed rate type: 15; term 0: 15; no guarantees: 5; no
    fees: 5; no lender: 5; no borrower: 5), clamped to [0, 100]; a contract
    that triggers all seven deductions scores exactly
    100 - 20 - 15 - 15 - 5 - 5 - 5 - 5 = 30. *)
Theorem confianza_tabla_de_deducciones (c : ContratoParseado) :
  fst (_calcular_confianza c) == confianza_spec c
  /\ 0 <= fst (_calcular_confianza c) <= 100
  /\ (monto_principal c == 0 -> tasa_nominal c == 0 -> tipo_tasa c = FIJA ->
      plazo_meses c = 0%Z -> garantias c = [] -> comisiones c = [] ->
      prestamista c = EmptyString -> prestatario c = EmptyString ->
      fst (_calcular_confianza c) == 30).
Proof.
  split; [apply confianza_puntaje|]. split.
  - rewrite confianza_puntaje. unfold confianza_spec.
    split.
    + apply Q.min_glb; [lra|]. apply Q.le_max_l.
    + apply Q.le_min_l.
  - intros Hm Ht Htipo Hp Hg Hc Hl Hb. rewrite confianza_puntaje.
    unfold confianza_spec, deducciones_spec, tabla_deducciones.
    apply Qis_zero_true in Hm, Ht.
    rewrite Hm, Ht, Htipo, Hp, Hg, Hc, Hl, Hb. vm_compute. reflexivity.
Qed.

Lemma confianza_tabla_de_deducciones_witness :
  fst (_calcular_confianza ContratoParseado_default) == 30.
Proof.
  apply (confianza_tabla_de_deducciones ContratoParseado_default);
    reflexivity.
Defined.




(** ** Determinism *)

(** C7, as stated, fails: the same contract, scheduled at two clock
    readings one day apart, gets different row dates. *)
Lemma tabla_depende_del_reloj :
  result_map (fun tabla => option_map fecha (hd_error tabla))
    (_generar_tabla_amortizacion 739000%Z contrato_ejemplo)
  = Ok (Some "2024-05-24")
  /\ result_map (fun tabla => option_map fecha (hd_error tabla))
       (_generar_tabla_amortizacion 739001%Z contrato_ejemplo)
     = Ok (Some "2024-05-25")
  /\ _generar_tabla_amortizacion 739000%Z contrato_ejemplo
     <> _generar_tabla_amortizacion 739001%Z contrato_ejemplo.
Proof.
  split; [vm_compute; reflexivity|]. split; [vm_compute; reflexivity|].
  vm_compute. discriminate.
Qed.

(** C7, amended.  Each public computation is a function of its input and
    of the clock reading, and the reading reaches only the [fecha] field of
    the rows: the schedule and the financial result at one reading are
    those at any other reading with each row dated again (30 days per
    period after the reading), and the sensitivity analysis and the
    prepayment simulation do not depend on the reading at all. *)
Theorem operaciones_deterministas_salvo_fecha
    (market_rates : json) (np_irr : list Q -> result Q)
    (fecha_base fecha_base' : datetime)
    (c : ContratoParseado) (mes_prepago : Z) (monto_prepago : Q) :
  _generar_tabla_amortizacion fecha_base c
  = result_map (map (refechar fecha_base))
      (_generar_tabla_amortizacion fecha_base' c)
  /\ calcular market_rates np_irr fecha_base c
     = result_map (refechar_resultado fecha_base)
         (calcular market_rates np_irr fecha_base' c)
  /\ _analisis_sensibilidad fecha_base c
     = _analisis_sensibilidad fecha_base' c
  /\ calcular_escenario_prepago fecha_base c mes_prepago monto_prepago
     = calcular_escenario_prepago fecha_base' c mes_prepago monto_prepago.
Proof.
  split; [apply tabla_refechar|]. split; [apply calcular_refechar|].
  split; [apply sensibilidad_refechar | apply prepago_refechar].
Qed.

(** ** Periodic rate of the French method *)




(** ** Sensitivity analysis *)




(** The case the amended claim leaves out: with a floor of 0% the test
    [if contrato.floor:] is false, the lower bound is not applied and the
    -1.0 scenario of a 0.5% loan reports -0.50, although the analysis says
    the contract has a floor. *)
Example piso_cero_no_acota :
  tasas_reportadas (_analisis_sensibilidad 739000%Z contrato_piso_cero)
  = Ok (Some [-0.50; 0.00; 0.50; 1.00; 1.50; 2.50])
  /\ result_map (option_map tiene_floor)
       (_analisis_sensibilidad 739000%Z contrato_piso_cero)
     = Ok (Some true).
Proof. split; vm_compute; reflexivity. Qed.

(** ** Prepayment simulator *)



(** The clause that does not permit prepayment still charges its penalty:
    2% of 10,000 in month 6. *)
Example penalizacion_sin_permiso :
  result_map penalizacion
    (calcular_escenario_prepago 739000%Z (contrato_prepago false) 6 10000)
  = Ok 200.00.
Proof. vm_compute. reflexivity. Qed.

(** * Further properties of the code *)

(** ** Shape of the schedule *)













(** ** Bullet schedules *)





(** ** Schedules with a grace period *)





(** ** Interest falls and principal rises *)



Section FrancesaMonotona.
Variable fecha_base : datetime.
Variables t com cuota0 : Q.
Hypothesis Ht : 0 <= t.
Hypothesis Hcuota : 0 <= cuota0.


End FrancesaMonotona.





(** ** The principal components add up to the principal *)










(** ** Effective annual rate *)





(** ** Total annual cost *)



(** ** Market benchmark *)








(** ** Net present value *)






(** ** The complete financial result *)




(** ** Sensitivity scenarios *)













(** ** Prepayment simulation *)









(** ** Critical periods and the financial summary *)







(** ** The general guarantee type *)

Lemma existsb_tipo (t : TipoGarantia) (garantias : list Garantia.t) :
  existsb (fun g => TipoGarantia_eqb (Garantia.tipo_general g) t) garantias
  = true <-> hay_garantia t garantias.
Proof.
  unfold hay_garantia. rewrite existsb_exists, in_map_iff. split.
  - intros (g & Hin & E). exists g. split; [|exact Hin].
    destruct (Garantia.tipo_general g), t; try discriminate; reflexivity.
  - intros (g & E & Hin). exists g. split; [exact Hin|]. rewrite E.
    destruct t; reflexivity.
Qed.

(** X17. The general guarantee type depends only on which kinds are
    present in the list: MIXTA exactly when a REAL and a PERSONAL guarantee
    are both present, REAL or PERSONAL when only that kind is, and
    SIN_GARANTIA exactly when neither is, which includes a non-empty list
    whose guarantees are all tagged MIXTA. *)
Theorem tipo_garantia_por_presencia (garantias : list Garantia.t) :
  (_determinar_tipo_garantia garantias = MIXTA
   <-> hay_garantia REAL garantias /\ hay_garantia PERSONAL garantias)
  /\ (_determinar_tipo_garantia garantias = REAL
      <-> hay_garantia REAL garantias /\ ~ hay_garantia PERSONAL garantias)
  /\ (_determinar_tipo_garantia garantias = PERSONAL
      <-> ~ hay_garantia REAL garantias /\ hay_garantia PERSONAL garantias)
  /\ (_determinar_tipo_garantia garantias = SIN_GARANTIA
      <-> ~ hay_garantia REAL garantias
          /\ ~ hay_garantia PERSONAL garantias).
Proof.
  pose proof (existsb_tipo REAL garantias) as Hr.
  pose proof (existsb_tipo PERSONAL garantias) as Hp.
  unfold _determinar_tipo_garantia.
  destruct garantias as [|g gs].
  - cbn. unfold hay_garantia. cbn. repeat split; try discriminate; tauto.
  - change (negb (list_truthy (g :: gs))) with false. cbv iota zeta.
    destruct (existsb _ (g :: gs)) in Hr |- *;
      destruct (existsb _ (g :: gs)) in Hp |- *; cbn [andb];
      intuition (discriminate || congruence).
Qed.

(** ** Risk levels, total score and recommendation *)

(** X18. A higher score never maps to a riskier level, and the sentence
    that interprets a score is the one of its risk level: the two
    functions cut the scale at the same points (20, 40, 60, 80). *)
Theorem nivel_monotono_y_texto (s s' : Z) :
  (s <= s')%Z ->
  (rango_nivel (_score_a_nivel s) <= rango_nivel (_score_a_nivel s'))%Z
  /\ _interpretar_score s = texto_de_nivel (_determinar_nivel_riesgo s).
Proof.
  intros Hs.
  unfold _determinar_nivel_riesgo, _interpretar_score, _score_a_nivel.
  destruct (Z.leb_spec 80 s), (Z.leb_spec 60 s), (Z.leb_spec 40 s),
    (Z.leb_spec 20 s), (Z.leb_spec 80 s'), (Z.leb_spec 60 s'),
    (Z.leb_spec 40 s'), (Z.leb_spec 20 s');
    cbn [rango_nivel texto_de_nivel]; split; try reflexivity; lia.
Qed.

Lemma nivel_monotono_y_texto_witness :
  (rango_nivel (_score_a_nivel 35) <= rango_nivel (_score_a_nivel 80))%Z
  /\ _interpretar_score 35 = texto_de_nivel (_determinar_nivel_riesgo 35).
Proof. apply (nivel_monotono_y_texto 35 80). lia. Defined.

Lemma py_int_mono (x y : Q) : x <= y -> (py_int x <= py_int y)%Z.
Proof.
  destruct x as [n1 d1], y as [n2 d2]. unfold py_int, Qle.
  cbn [Qnum Qden]. intros H.
  assert (Hfloor : forall a b c d : Z,
            (0 <= a)%Z -> (0 < b)%Z -> (0 < d)%Z ->
            (a * d <= c * b)%Z -> (a / b <= c / d)%Z).
  { intros a b c d Ha Hb Hd Hle.
    apply Z.div_le_lower_bound; [lia|].
    pose proof (Z.mul_div_le a b Hb) as Hq.
    apply (Z.mul_le_mono_pos_r _ _ b Hb).
    apply Z.le_trans with (a * d)%Z; [|exact Hle].
    rewrite (Z.mul_comm d), <- Z.mul_assoc, (Z.mul_comm d b), Z.mul_assoc.
    apply Z.mul_le_mono_nonneg_r; lia. }
  destruct (Z_lt_le_dec n1 0) as [Hn1|Hn1].
  - assert (E1 : n1 = (- (- n1))%Z) by lia.
    remember (- n1)%Z as m1 eqn:Em1. rewrite E1.
    rewrite Z.quot_opp_l by lia. rewrite (Z.quot_div_nonneg m1) by lia.
    destruct (Z_lt_le_dec n2 0) as [Hn2|Hn2].
    + assert (E2 : n2 = (- (- n2))%Z) by lia.
      remember (- n2)%Z as m2 eqn:Em2. rewrite E2.
      rewrite Z.quot_opp_l by lia. rewrite (Z.quot_div_nonneg m2) by lia.
      apply (proj1 (Z.opp_le_mono _ _)). apply Hfloor; lia.
    + rewrite Z.quot_div_nonneg by lia.
      assert (0 <= m1 / Z.pos d1)%Z by (apply Z.div_pos; lia).
      assert (0 <= n2 / Z.pos d2)%Z by (apply Z.div_pos; lia). lia.
  - assert (0 <= n2)%Z by nia.
    rewrite !Z.quot_div_nonneg by lia. apply Hfloor; lia.
Qed.

Lemma py_int_inject_Z (k : Z) (x : Q) : x == inject_Z k -> py_int x = k.
Proof.
  intros E.
  assert (Ek : py_int (inject_Z k) = k)
    by (unfold py_int, inject_Z; cbn [Qnum Qden]; apply Z.quot_1_r).
  assert (H1 : (py_int x <= py_int (inject_Z k))%Z)
    by (apply py_int_mono; rewrite E; apply Qle_refl).
  assert (H2 : (py_int (inject_Z k) <= py_int x)%Z)
    by (apply py_int_mono; rewrite E; apply Qle_refl).
  lia.
Qed.

Lemma fold_left_Zadd (l : list Z) (a : Z) :
  fold_left Z.add l a = (a + fold_left Z.add l 0)%Z.
Proof.
  revert a. induction l as [|x l IH]; intros a; cbn [fold_left].
  - lia.
  - rewrite IH, (IH (0 + x)%Z). lia.
Qed.

Lemma impacto_de_app (f1 f2 : list RedFlag.t) :
  impacto_de (f1 ++ f2) = (impacto_de f1 + impacto_de f2)%Z.
Proof.
  unfold impacto_de. rewrite map_app, fold_left_app.
  apply fold_left_Zadd.
Qed.

Lemma impacto_de_no_positivo (flags : list RedFlag.t) :
  Forall (fun rf => (RedFlag.impacto_score rf <= 0)%Z) flags ->
  (impacto_de flags <= 0)%Z.
Proof.
  induction 1 as [|rf l H _ IH].
  - cbn. lia.
  - change (rf :: l) with ([rf] ++ l)%list. rewrite impacto_de_app.
    unfold impacto_de at 1. cbn. lia.
Qed.

Lemma acotar_score_mono (a b : Z) :
  (a <= b)%Z -> (acotar_score a <= acotar_score b)%Z.
Proof. unfold acotar_score. lia. Qed.

Lemma acotar_score_entre (a : Z) : (0 <= acotar_score a <= 100)%Z.
Proof. unfold acotar_score. lia. Qed.

(** X19. The total score always lies in 0..100; more red flags whose
    impacts are not positive never raise it; and with no category it is 50
    plus the impacts of the flags, cut to 0..100. *)
Theorem score_total_acotado (scores_categorias : list ScoreCategoria.t)
    (red_flags nuevos : list RedFlag.t) :
  Forall (fun rf => (RedFlag.impacto_score rf <= 0)%Z) nuevos ->
  (0 <= _calcular_score_total scores_categorias red_flags <= 100)%Z
  /\ (_calcular_score_total scores_categorias (red_flags ++ nuevos)
      <= _calcular_score_total scores_categorias red_flags)%Z
  /\ _calcular_score_total [] red_flags
     = acotar_score (50 + impacto_de red_flags).
Proof.
  intros Hn. apply impacto_de_no_positivo in Hn.
  unfold _calcular_score_total.
  destruct (fold_left _ scores_categorias (0, 0)) as [sp tp].
  split; [apply acotar_score_entre|]. split.
  - apply acotar_score_mono, py_int_mono.
    set (base := if Qltb 0 tp then _ else _).
    rewrite !fl_correct, impacto_de_app, inject_Z_plus.
    assert (inject_Z (impacto_de nuevos) <= 0).
    { change 0 with (inject_Z 0). rewrite <- Zle_Qle. exact Hn. }
    lra.
  - cbn [fold_left]. change (Qltb 0 0) with false. cbv iota.
    f_equal. apply py_int_inject_Z.
    rewrite fl_correct, inject_Z_plus. reflexivity.
Qed.

Lemma score_total_acotado_witness :
  (0 <= _calcular_score_total [categoria_de 70 (25 # 100)]
          [flag_de ALTA (-12)] <= 100)%Z
  /\ (_calcular_score_total [categoria_de 70 (25 # 100)]
        ([flag_de ALTA (-12)] ++ [flag_de MEDIA (-6)])
      <= _calcular_score_total [categoria_de 70 (25 # 100)]
           [flag_de ALTA (-12)])%Z
  /\ _calcular_score_total [] [flag_de ALTA (-12)]
     = acotar_score (50 + impacto_de [flag_de ALTA (-12)]).
Proof.
  apply (score_total_acotado [categoria_de 70 (25 # 100)]
           [flag_de ALTA (-12)] [flag_de MEDIA (-6)]).
  repeat constructor. cbn. lia.
Defined.




Lemma sin_criticos (flags : list RedFlag.t) :
  List.length (filter es_flag_critico flags) = 0%nat ->
  Forall (fun rf => es_flag_critico rf = false) flags.
Proof.
  induction flags as [|rf l IH]; cbn [filter]; intros H.
  - constructor.
  - destruct (es_flag_critico rf) eqn:E; [discriminate H|].
    constructor; [exact E | apply IH, H].
Qed.

Lemma accion_por_casos (s : Z) (flags : list RedFlag.t)
    (r : ResultadoCalculo) :
  let n := Z.of_nat (List.length (filter es_flag_critico flags)) in
  (snd (_generar_recomendacion s flags r) = "Aceptar"
   /\ (70 <= s)%Z /\ n = 0%Z)
  \/ (snd (_generar_recomendacion s flags r) = "Negociar"
      /\ ((s < 70)%Z \/ n <> 0%Z)
      /\ ((50 <= s)%Z \/ ((40 <= s)%Z /\ (n <= 1)%Z)))
  \/ (snd (_generar_recomendacion s flags r) = "Rechazar"
      /\ (s < 50)%Z /\ ((s < 40)%Z \/ (1 < n)%Z)).
Proof.
  intros n. unfold _generar_recomendacion. fold n.
  destruct (Z.leb_spec 70 s), (Z.eqb_spec n 0); cbn [andb snd];
    try (left; repeat split; (reflexivity || lia));
    (destruct (Z.leb_spec 50 s); cbn [orb snd];
     [right; left; repeat split; (reflexivity || lia)|]);
    (destruct (Z.leb_spec 40 s), (Z.leb_spec n 1); cbn [andb snd];
     [right; left; repeat split; (reflexivity || lia) | | |]);
    right; right; repeat split; (reflexivity || lia).
Qed.

(** X21. The suggested action never gets better when the score drops or
    red flags are added; it is "Aceptar" only for a score of at least 70
    with no flag of severity ALTA or CRITICA, and always "Rechazar" for a
    score below 40.  The financial result plays no part. *)
Theorem recomendacion_monotona (s s' : Z) (flags nuevos : list RedFlag.t)
    (r r' : ResultadoCalculo) :
  (s <= s')%Z ->
  (rango_accion (snd (_generar_recomendacion s (flags ++ nuevos) r))
   <= rango_accion (snd (_generar_recomendacion s' flags r')))%Z
  /\ (snd (_generar_recomendacion s' flags r') = "Aceptar" ->
      (70 <= s')%Z /\ Forall (fun rf => es_flag_critico rf = false) flags)
  /\ ((s < 40)%Z -> snd (_generar_recomendacion s flags r) = "Rechazar").
Proof.
  intros Hs.
  pose proof (accion_por_casos s (flags ++ nuevos) r) as H1.
  pose proof (accion_por_casos s' flags r') as H2.
  pose proof (accion_por_casos s flags r) as H3.
  cbv zeta in H1, H2, H3.
  rewrite filter_app, length_app, Nat2Z.inj_add in H1.
  pose proof (sin_criticos flags) as Hsin.
  set (n := List.length (filter es_flag_critico flags)) in *.
  set (m := List.length (filter es_flag_critico nuevos)) in *.
  pose proof (Nat2Z.is_nonneg m) as Hm.
  split; [|split].
  - destruct H1 as [(-> & ?)|[(-> & ?)|(-> & ?)]],
             H2 as [(-> & ?)|[(-> & ?)|(-> & ?)]];
      change (rango_accion "Aceptar") with 2%Z;
      change (rango_accion "Negociar") with 1%Z;
      change (rango_accion "Rechazar") with 0%Z; lia.
  - destruct H2 as [(_ & ? & ?)|[(-> & ?)|(-> & ?)]]; try discriminate.
    intros _. split; [assumption | apply Hsin; lia].
  - intros Hlt. destruct H3 as [(_ & ? & ?)|[(_ & ? & ?)|(E & _)]];
      [lia | lia | exact E].
Qed.

Lemma recomendacion_monotona_witness :
  (rango_accion
     (snd (_generar_recomendacion 65 ([] ++ [flag_de ALTA (-12)])
             resultado_vacio))
   <= rango_accion (snd (_generar_recomendacion 75 [] resultado_vacio)))%Z
  /\ (snd (_generar_recomendacion 75 [] resultado_vacio) = "Aceptar" ->
      (70 <= 75)%Z /\ Forall (fun rf => es_flag_critico rf = false) [])
  /\ ((65 < 40)%Z ->
      snd (_generar_recomendacion 65 [] resultado_vacio) = "Rechazar").
Proof.
  apply (recomendacion_monotona 65 75 [] [flag_de ALTA (-12)]
           resultado_vacio resultado_vacio).
  lia.
Defined.

(** X22. The liquidity category always scores between 15 and 100, carries
    the level of its score, the weight 0.25 and at most five factors; and
    a bullet contract never scores higher than a contract with the same
    principal, grace period, frequency and term. *)
Theorem liquidez_acotada (c c' : ContratoParseado) (r : ResultadoCalculo) :
  monto_principal c' = monto_principal c ->
  periodo_gracia_meses c' = periodo_gracia_meses c ->
  frecuencia_pago c' = frecuencia_pago c ->
  plazo_meses c' = plazo_meses c ->
  es_bullet c' = true ->
  (15 <= ScoreCategoria.score (_evaluar_riesgo_liquidez c r) <= 100)%Z
  /\ ScoreCategoria.nivel (_evaluar_riesgo_liquidez c r)
     = _score_a_nivel (ScoreCategoria.score (_evaluar_riesgo_liquidez c r))
  /\ ScoreCategoria.peso (_evaluar_riesgo_liquidez c r) == 0.25
  /\ (List.length (ScoreCategoria.factores (_evaluar_riesgo_liquidez c r))
      <= 5)%nat
  /\ (ScoreCategoria.score (_evaluar_riesgo_liquidez c' r)
      <= ScoreCategoria.score (_evaluar_riesgo_liquidez c r))%Z.
Proof.
  intros Em Eg Ef Ep Eb.
  assert (Hb :
    ((15 <=? ScoreCategoria.score (_evaluar_riesgo_liquidez c r))%Z
     && (ScoreCategoria.score (_evaluar_riesgo_liquidez c r) <=? 100)%Z
     && (List.length (ScoreCategoria.factores (_evaluar_riesgo_liquidez c r))
         <=? 5)%nat
     && (ScoreCategoria.score (_evaluar_riesgo_liquidez c' r)
         <=? ScoreCategoria.score (_evaluar_riesgo_liquidez c r))%Z)%bool
    = true).
  { unfold _evaluar_riesgo_liquidez. rewrite Em, Eg, Ef, Ep, Eb.
    set (ratio := fl (fl (cuota_mensual r * 12) / monto_principal c)).
    repeat match goal with
           | |- context [@cons string ?x nil] =>
               lazymatch x with
               | String _ _ => generalize x; intro
               end
           end.
    destruct (Qltb 0 (monto_principal c));
      [destruct (Qltb (6 # 10) ratio); [|destruct (Qltb (4 # 10) ratio)]|];
      destruct (es_bullet c);
      (destruct (0 <? periodo_gracia_meses c)%Z;
       [destruct (12 <=? periodo_gracia_meses c)%Z|]);
      destruct (frecuencia_pago c);
      (destruct (60 <? plazo_meses c)%Z;
       [|destruct (plazo_meses c <? 12)%Z]);
      vm_compute; reflexivity. }
  apply andb_prop in Hb. destruct Hb as [Hb H4].
  apply andb_prop in Hb. destruct Hb as [Hb H3].
  apply andb_prop in Hb. destruct Hb as [H1 H2].
  apply Z.leb_le in H1, H2, H4. apply Nat.leb_le in H3.
  repeat split; try assumption;
    unfold _evaluar_riesgo_liquidez;
    repeat match goal with
           | |- context [let '(_, _) := ?X in _] => destruct X
           end; reflexivity.
Qed.

Lemma liquidez_acotada_witness :
  (15 <= ScoreCategoria.score
           (_evaluar_riesgo_liquidez contrato_ejemplo resultado_vacio)
   <= 100)%Z
  /\ ScoreCategoria.nivel
       (_evaluar_riesgo_liquidez contrato_ejemplo resultado_vacio)
     = _score_a_nivel
         (ScoreCategoria.score
            (_evaluar_riesgo_liquidez contrato_ejemplo resultado_vacio))
  /\ ScoreCategoria.peso
       (_evaluar_riesgo_liquidez contrato_ejemplo resultado_vacio) == 0.25
  /\ (List.length
        (ScoreCategoria.factores
           (_evaluar_riesgo_liquidez contrato_ejemplo resultado_vacio))
      <= 5)%nat
  /\ (ScoreCategoria.score
        (_evaluar_riesgo_liquidez
           (contrato_con 100000 12 FIJA 12 MENSUAL None None 0 true None)
           resultado_vacio)
      <= ScoreCategoria.score
           (_evaluar_riesgo_liquidez contrato_ejemplo resultado_vacio))%Z.
Proof.
  apply (liquidez_acotada contrato_ejemplo
           (contrato_con 100000 12 FIJA 12 MENSUAL None None 0 true None)
           resultado_vacio);
    reflexivity.
Defined.

(** ** Fees *)



